(** * DNAHelix: parametric geometry of the hero double helix

    A shallow embedding of [src/components/three/DNAHelix.tsx].

    JavaScript numbers are modelled as the real numbers [R] of the Standard
    Library: [Math.cos] and [Math.sin] are [cos] and [sin], decimal literals
    are the decimals they are written as, and sums and products are exact,
    so the rounding of the operations is outside this model.  [Math.PI] is
    not pi but the double nearest to it, [Math_PI], a rational just below
    [PI]; what the program owes to that difference ([sin(Math.PI)] is not 0)
    shows in the model.  [PI] itself stands for times such as [t = pi].

    Where a statement depends on how sums and products round, the
    expression is also embedded in binary64 with primitive floats (module
    [Double]); this covers the expressions without [sin] and [cos], whose
    results ECMAScript leaves to the implementation.

    Loop counters are natural numbers, injected into [R] with [INR] where
    the source uses them in arithmetic. *)

From Stdlib Require Import Reals.Reals Reals.Machin Psatz List Arith.PeanoNat.
From Stdlib Require Import ZArith.BinInt Numbers.Cyclic.Int63.Uint63 Floats.PrimFloat.
Import ListNotations.

Open Scope R_scope.

(* ------------------------------------------------------------------ *)
(** ** Constants                                                       *)
(* ------------------------------------------------------------------ *)

(** Total number of base pairs to render. *)
Definition BASE_PAIR_COUNT : nat := 20.

(** Vertical spacing between each base pair (world units). *)
Definition VERTICAL_STEP : R := 0.45.

(** Radius of the helix. *)
Definition HELIX_RADIUS : R := 1.2.

(** [Math.PI]: the double [0x1.921fb54442d18p+1], as the real number it
    is. *)
Definition Math_PI : R := 884279719003555 / 281474976710656.

(** How much the helix twists per base pair (radians). *)
Definition TWIST_PER_STEP : R := (2 * Math_PI) / 10.

(* ------------------------------------------------------------------ *)
(** ** The fragment of three.js the component relies on                *)
(* ------------------------------------------------------------------ *)

Record Vector3 : Type := mkVector3 { vx : R; vy : R; vz : R }.

Record Quaternion : Type := mkQuaternion { qx : R; qy : R; qz : R; qw : R }.

Record Euler : Type := mkEuler { ex : R; ey : R; ez : R }.

(** The [curveType] argument of [CatmullRomCurve3]. *)
Inductive CurveType : Type := centripetal | chordal | catmullrom.

(** [new THREE.CatmullRomCurve3(points, closed, curveType, tension)]. *)
Record CatmullRomCurve3 : Type := mkCatmullRomCurve3 {
  points : list Vector3;
  closed : bool;
  curveType : CurveType;
  tension : R
}.

(** [for (let i = start; i < start + count; i++) body], threading the state
    the body mutates. *)
Fixpoint for_loop {St : Type} (i count : nat) (body : nat -> St -> St) (s : St) : St :=
  match count with
  | O => s
  | S count' => for_loop (S i) count' body (body i s)
  end.

(** [array.push(v)]. *)
Definition push {A : Type} (arr : list A) (v : A) : list A := arr ++ [v].

(* ------------------------------------------------------------------ *)
(** ** Helper: build a CatmullRomCurve3 for one backbone strand        *)
(* ------------------------------------------------------------------ *)

(** The body of the loop of [buildBackboneCurve]: the control point pushed
    at counter value [i]. *)
Definition backbonePoint (phaseOffset : R) (i : nat) : Vector3 :=
  let t := INR i / 4 in
  let angle := t * TWIST_PER_STEP + phaseOffset in
  let y := t * VERTICAL_STEP - (INR BASE_PAIR_COUNT * VERTICAL_STEP) / 2 in
  mkVector3 (cos angle * HELIX_RADIUS) y (sin angle * HELIX_RADIUS).

Definition buildBackboneCurve (phaseOffset : R) : CatmullRomCurve3 :=
  let totalSteps := (BASE_PAIR_COUNT * 4)%nat in
  (* [i <= totalSteps]: totalSteps + 1 iterations *)
  let points :=
    for_loop 0 (S totalSteps)
      (fun i points => push points (backbonePoint phaseOffset i)) [] in
  mkCatmullRomCurve3 points false catmullrom 0.5.

(* ------------------------------------------------------------------ *)
(** ** The builder as a computation in its surroundings                *)
(* ------------------------------------------------------------------ *)

(** What a JavaScript function can reach beyond its arguments: the
    generator behind [Math.random()] (the numbers it will return, and how
    many it has returned) and the mutable bindings outside the function. *)
Record World : Type := mkWorld {
  entropy : nat -> R;
  drawn : nat;
  globals : nat -> R
}.

(** A computation: it reads the world and leaves a world behind. *)
Definition JS (A : Type) : Type := World -> A * World.

Definition ret {A : Type} (a : A) : JS A := fun w => (a, w).

Definition bind {A B : Type} (m : JS A) (k : A -> JS B) : JS B :=
  fun w => let '(a, w') := m w in k a w'.

(** [Math.random()]. *)
Definition Math_random : JS R :=
  fun w => (entropy w (drawn w), mkWorld (entropy w) (S (drawn w)) (globals w)).

(** Reading and assigning a binding outside the function. *)
Definition global_get (k : nat) : JS R := fun w => (globals w k, w).

Definition global_set (k : nat) (v : R) : JS unit :=
  fun w => (tt, mkWorld (entropy w) (drawn w)
                        (fun k' => if Nat.eqb k' k then v else globals w k')).

(** [for (let i = start; i < start + count; i++) body], the body a
    computation. *)
Fixpoint for_loop_JS {St : Type} (i count : nat) (body : nat -> St -> JS St)
    (s : St) : JS St :=
  match count with
  | O => ret s
  | S count' => bind (body i s) (for_loop_JS (S i) count' body)
  end.

(** [buildBackboneCurve], statement by statement, as a computation: the
    calls it makes ([Math.cos], [Math.sin], [new THREE.Vector3],
    [points.push] on its own array, [new THREE.CatmullRomCurve3]) neither
    read nor write the world. *)
Definition buildBackboneCurve_JS (phaseOffset : R) : JS CatmullRomCurve3 :=
  let totalSteps := (BASE_PAIR_COUNT * 4)%nat in
  bind (for_loop_JS 0 (S totalSteps)
          (fun i points =>
             let t := INR i / 4 in
             let angle := t * TWIST_PER_STEP + phaseOffset in
             let y := t * VERTICAL_STEP
                      - (INR BASE_PAIR_COUNT * VERTICAL_STEP) / 2 in
             ret (push points
                    (mkVector3 (cos angle * HELIX_RADIUS) y
                               (sin angle * HELIX_RADIUS))))
          [])
       (fun points => ret (mkCatmullRomCurve3 points false catmullrom 0.5)).

(* ------------------------------------------------------------------ *)
(** ** Sub-component: BackboneStrand                                   *)
(* ------------------------------------------------------------------ *)





(* ------------------------------------------------------------------ *)
(** ** Object3D and instance matrices                                  *)
(* ------------------------------------------------------------------ *)

(** The local transform of a [THREE.Object3D]. *)
Record Object3D : Type := mkObject3D {
  position : Vector3;
  quaternion : Quaternion;
  scale : Vector3
}.

(** [new THREE.Object3D()]: at the origin, identity rotation, unit scale. *)
Definition identityQuaternion : Quaternion := mkQuaternion 0 0 0 1.

Definition new_Object3D : Object3D :=
  mkObject3D (mkVector3 0 0 0) identityQuaternion (mkVector3 1 1 1).

(** A [THREE.Matrix4] built by [compose(position, quaternion, scale)], kept
    as the three components that determine it. *)
Record Matrix4 : Type := compose {
  translation : Vector3;
  rotation : Quaternion;
  scaling : Vector3
}.

(** [d.position.set(x, y, z)]. *)
Definition position_set (d : Object3D) (x y z : R) : Object3D :=
  mkObject3D (mkVector3 x y z) (quaternion d) (scale d).

(** [d.scale.set(x, y, z)]. *)
Definition scale_set (d : Object3D) (x y z : R) : Object3D :=
  mkObject3D (position d) (quaternion d) (mkVector3 x y z).

(** [d.scale.setScalar(s)]. *)
Definition scale_setScalar (d : Object3D) (s : R) : Object3D :=
  scale_set d s s s.

(** The value of [d.matrix] after [d.updateMatrix()]. *)
Definition updateMatrix (d : Object3D) : Matrix4 :=
  compose (position d) (quaternion d) (scale d).

(** [<cylinderGeometry args={[radiusTop, radiusBottom, height,
    radialSegments]} />]; the cylinder's axis is its local Y axis. *)
Record CylinderGeometry : Type := mkCylinderGeometry {
  radiusTop : R;
  radiusBottom : R;
  height : R;
  radialSegments : nat
}.

(** Extent along the local Y axis of a cylinder drawn with instance matrix
    [m]. *)
Definition instanceLength (g : CylinderGeometry) (m : Matrix4) : R :=
  height g * vy (scaling m).

(** Midpoint of two points. *)
Definition midpoint (a b : Vector3) : Vector3 :=
  mkVector3 ((vx a + vx b) / 2) ((vy a + vy b) / 2) ((vz a + vz b) / 2).

(* ------------------------------------------------------------------ *)
(** ** Sub-component: BackboneNodes                                    *)
(* ------------------------------------------------------------------ *)

(** One iteration of the loop of [BackboneNodes], on the shared [dummy] and
    the [result] array. *)
Definition backboneNodes_body (phaseOffset : R) (i : nat)
    (st : Object3D * list Matrix4) : Object3D * list Matrix4 :=
  let '(dummy, result) := st in
  let angle := INR i * TWIST_PER_STEP + phaseOffset in
  let y := INR i * VERTICAL_STEP - (INR BASE_PAIR_COUNT * VERTICAL_STEP) / 2 in
  let dummy := position_set dummy (cos angle * HELIX_RADIUS) y (sin angle * HELIX_RADIUS) in
  let dummy := scale_setScalar dummy 1 in
  (dummy, push result (updateMatrix dummy)).

Definition BackboneNodes (phaseOffset : R) : list Matrix4 :=
  snd (for_loop 0 BASE_PAIR_COUNT (backboneNodes_body phaseOffset) (new_Object3D, [])).

(* ------------------------------------------------------------------ *)
(** ** Sub-component: BasePairRungs                                    *)
(* ------------------------------------------------------------------ *)

(** The shared cylinder prototype of the rungs. *)
Definition RUNG_GEOMETRY : CylinderGeometry := mkCylinderGeometry 0.03 0.03 2 6.

Section Orientation.

(** The two orientation methods of [Object3D] are three.js code; the
    component only hands them its arguments.  They are taken as they come:
    [lookAtQuaternion d target] is the quaternion of [d] after
    [d.lookAt(target)], [rotateXQuaternion q angle] the quaternion after
    [rotateX(angle)] on an object whose quaternion was [q].  Neither method
    writes [position] or [scale]. *)
Variable lookAtQuaternion : Object3D -> Vector3 -> Quaternion.
Variable rotateXQuaternion : Quaternion -> R -> Quaternion.

Definition lookAt (d : Object3D) (x y z : R) : Object3D :=
  mkObject3D (position d) (lookAtQuaternion d (mkVector3 x y z)) (scale d).

Definition rotateX (d : Object3D) (angle : R) : Object3D :=
  mkObject3D (position d) (rotateXQuaternion (quaternion d) angle) (scale d).

(** One iteration of the loop of [BasePairRungs]. *)
Definition basePairRungs_body (i : nat)
    (st : Object3D * list Matrix4) : Object3D * list Matrix4 :=
  let '(dummy, result) := st in
  let angle := INR i * TWIST_PER_STEP in
  let y := INR i * VERTICAL_STEP - (INR BASE_PAIR_COUNT * VERTICAL_STEP) / 2 in
  let ax := cos angle * HELIX_RADIUS in
  let az := sin angle * HELIX_RADIUS in
  let bx := cos (angle + Math_PI) * HELIX_RADIUS in
  let bz := sin (angle + Math_PI) * HELIX_RADIUS in
  let cx := (ax + bx) / 2 in
  let cz := (az + bz) / 2 in
  let length := HELIX_RADIUS * 2 in
  let dummy := position_set dummy cx y cz in
  let dummy := lookAt dummy bx y bz in
  let dummy := rotateX dummy (Math_PI / 2) in
  let dummy := scale_set dummy 1 (length / 2) 1 in
  (dummy, push result (updateMatrix dummy)).

Definition BasePairRungs : list Matrix4 :=
  snd (for_loop 0 BASE_PAIR_COUNT basePairRungs_body (new_Object3D, [])).

End Orientation.

(* ------------------------------------------------------------------ *)
(** ** Main component: DNAHelix                                        *)
(* ------------------------------------------------------------------ *)

(** The part of the [THREE.Group] the frame callback can reach. *)
Record Group : Type := mkGroup {
  group_rotation : Euler;
  group_position : Vector3;
  group_scale : Vector3
}.

(** The [useFrame] callback of [DNAHelix]: [groupRef] is [groupRef.current]
    ([None] for [null]) and [t] is [clock.getElapsedTime()]. *)
Definition DNAHelix_useFrame (groupRef : option Group) (t : R) : option Group :=
  match groupRef with
  | None => None
  | Some g =>
      (* Slow continuous Y-axis rotation *)
      let g := mkGroup (mkEuler (ex (group_rotation g)) (t * 0.15) (ez (group_rotation g)))
                       (group_position g) (group_scale g) in
      (* Gentle sinusoidal bobbing on Y *)
      let g := mkGroup (group_rotation g)
                       (mkVector3 (vx (group_position g)) (sin (t * 0.5) * 0.15)
                                  (vz (group_position g)))
                       (group_scale g) in
      Some g
  end.

Definition nodesA : list Matrix4 := BackboneNodes 0.
Definition nodesB : list Matrix4 := BackboneNodes Math_PI.

(* ------------------------------------------------------------------ *)
(** ** Instanced meshes and the mount effect                           *)
(* ------------------------------------------------------------------ *)

(** The per-instance buffer of a [THREE.InstancedMesh]: one slot of sixteen
    floats per instance, [None] while the component has not written it.  The
    buffer is a typed array: its length is fixed when the mesh is made. *)
Record InstancedMesh : Type := mkInstancedMesh {
  instanceMatrix : list (option Matrix4);
  needsUpdate : bool
}.

(** [<instancedMesh args={[undefined, undefined, count]}>]. *)
Definition new_InstancedMesh (count : nat) : InstancedMesh :=
  mkInstancedMesh (repeat None count) false.

(** A store into a typed array: an index past the end writes nothing. *)
Fixpoint write_slot {A : Type} (buf : list A) (index : nat) (v : A) : list A :=
  match buf, index with
  | [], _ => []
  | _ :: rest, O => v :: rest
  | x :: rest, S index' => x :: write_slot rest index' v
  end.

(** [mesh.setMatrixAt(index, mat)].  The buffer holds single-precision
    floats and three.js rounds each entry on the way in; the slot is kept
    here as the matrix handed over, and no statement below depends on the
    digits stored. *)
Definition setMatrixAt (mesh : InstancedMesh) (index : nat) (mat : Matrix4)
    : InstancedMesh :=
  mkInstancedMesh (write_slot (instanceMatrix mesh) index (Some mat))
                  (needsUpdate mesh).

(** [arr.forEach((a, i) => f(a, i))] from index [i] on, threading the state
    the callback mutates. *)
Fixpoint forEach {A St : Type} (arr : list A) (i : nat)
    (f : A -> nat -> St -> St) (s : St) : St :=
  match arr with
  | [] => s
  | a :: rest => forEach rest (S i) f (f a i s)
  end.

(** The [useEffect] callback of [BasePairRungs] and of [BackboneNodes] (the
    two are the same text): [meshRef] is [meshRef.current].  [needsUpdate]
    is kept as the flag the source assigns; three.js counts such
    assignments in a version number. *)
Definition applyMatrices (meshRef : option InstancedMesh)
    (matrices : list Matrix4) : option InstancedMesh :=
  match meshRef with
  | None => None
  | Some mesh =>
      let mesh := forEach matrices 0 (fun mat i mesh => setMatrixAt mesh i mat) mesh in
      Some (mkInstancedMesh (instanceMatrix mesh) true)
  end.

(** [BackboneNodes] once mounted: the instanced mesh after the effect has
    run on the mesh React created for it. *)
Definition BackboneNodes_mounted (phaseOffset : R) : option InstancedMesh :=
  applyMatrices (Some (new_InstancedMesh BASE_PAIR_COUNT)) (BackboneNodes phaseOffset).

(** [BasePairRungs] once mounted. *)
Definition BasePairRungs_mounted
    (lookAtQuaternion : Object3D -> Vector3 -> Quaternion)
    (rotateXQuaternion : Quaternion -> R -> Quaternion) : option InstancedMesh :=
  applyMatrices (Some (new_InstancedMesh BASE_PAIR_COUNT))
                (BasePairRungs lookAtQuaternion rotateXQuaternion).

(** Squared distance between two points. *)
Definition distSq (a b : Vector3) : R :=
  (vx a - vx b) * (vx a - vx b) + (vy a - vy b) * (vy a - vy b)
  + (vz a - vz b) * (vz a - vz b).

(* ------------------------------------------------------------------ *)
(** ** The vertical coordinate in binary64                             *)
(* ------------------------------------------------------------------ *)

Module Double.

#[local] Set Warnings "-inexact-float".

(** A loop counter as the JavaScript number it is. *)
Definition number (n : nat) : float := of_uint63 (of_Z (Z.of_nat n)).

Definition BASE_PAIR_COUNT : float := 20%float.

(** The double nearest to 0.45. *)
Definition VERTICAL_STEP : float := 0.45%float.

(** [y] in the loop of [buildBackboneCurve], at counter value [i]. *)
Definition backbonePoint_y (i : nat) : float :=
  let t := (number i / 4)%float in
  (t * VERTICAL_STEP - (BASE_PAIR_COUNT * VERTICAL_STEP) / 2)%float.

(** [y] in the loops of [BackboneNodes] and [BasePairRungs], at counter
    value [i]. *)
Definition level_y (i : nat) : float :=
  (number i * VERTICAL_STEP - (BASE_PAIR_COUNT * VERTICAL_STEP) / 2)%float.

End Double.

(* ------------------------------------------------------------------ *)
(** ** Closed forms used in the proofs                                 *)
(* ------------------------------------------------------------------ *)

(** Vertical level of base pair [i]. *)
Definition levelY (i : nat) : R :=
  INR i * VERTICAL_STEP - (INR BASE_PAIR_COUNT * VERTICAL_STEP) / 2.

(** Position of junction node [i] of the strand with the given phase. *)
Definition nodePosition (phaseOffset : R) (i : nat) : Vector3 :=
  mkVector3 (cos (INR i * TWIST_PER_STEP + phaseOffset) * HELIX_RADIUS)
            (levelY i)
            (sin (INR i * TWIST_PER_STEP + phaseOffset) * HELIX_RADIUS).

Definition nodeMatrix (phaseOffset : R) (i : nat) : Matrix4 :=
  compose (nodePosition phaseOffset i) identityQuaternion (mkVector3 1 1 1).

(* ------------------------------------------------------------------ *)
(** ** Loop lemmas                                                     *)
(* ------------------------------------------------------------------ *)

Section PushLoop.
Context {A : Type} (f : nat -> A).

Lemma for_loop_push (count i : nat) (acc : list A) :
  for_loop i count (fun i arr => push arr (f i)) acc
  = acc ++ map f (seq i count).
Proof.
  revert i acc; induction count as [|n IH]; intros i acc; simpl.
  - now rewrite app_nil_r.
  - rewrite IH. unfold push. now rewrite <- app_assoc.
Qed.

Lemma nth_error_map_seq (start count k : nat) :
  (k < count)%nat ->
  nth_error (map f (seq start count)) k = Some (f (start + k)%nat).
Proof.
  intros Hk. apply map_nth_error.
  rewrite nth_error_nth' with (d := O) by now rewrite length_seq.
  now rewrite seq_nth.
Qed.

Lemma Forall2_eq_map (l : list nat) (ms : list A) :
  Forall2 (fun i m => m = f i) l ms -> ms = map f l.
Proof. induction 1; simpl; congruence. Qed.

End PushLoop.

(** Loops that mutate a shared [dummy] and push one matrix per iteration:
    an invariant [Inv] on the dummy gives a property [P i] of the [i]-th
    matrix pushed. *)
Section DummyLoop.
Variable body : nat -> Object3D * list Matrix4 -> Object3D * list Matrix4.
Variable Inv : Object3D -> Prop.
Variable P : nat -> Matrix4 -> Prop.
Hypothesis body_step : forall i d res, Inv d ->
  exists d' m, body i (d, res) = (d', push res m) /\ Inv d' /\ P i m.

Lemma for_loop_dummy (count i : nat) (d : Object3D) (res : list Matrix4) :
  Inv d ->
  exists d' ms,
    for_loop i count body (d, res) = (d', res ++ ms)
    /\ Inv d' /\ Forall2 P (seq i count) ms.
Proof.
  revert i d res; induction count as [|n IH]; intros i d res Hd; simpl.
  - exists d, []. rewrite app_nil_r. auto.
  - destruct (body_step i d res Hd) as (d1 & m & -> & Hd1 & Hm).
    destruct (IH (S i) d1 (push res m) Hd1) as (d2 & ms & -> & Hd2 & Hms).
    exists d2, (m :: ms). unfold push. rewrite <- app_assoc. simpl. auto.
Qed.

End DummyLoop.

(* ------------------------------------------------------------------ *)
(** ** Closed forms of the three generators                            *)
(* ------------------------------------------------------------------ *)

Lemma buildBackboneCurve_points (phaseOffset : R) :
  points (buildBackboneCurve phaseOffset)
  = map (backbonePoint phaseOffset) (seq 0 81).
Proof.
  unfold buildBackboneCurve; cbn [points].
  now rewrite for_loop_push.
Qed.

Lemma buildBackboneCurve_nth (phaseOffset : R) (k : nat) :
  (k <= 4 * BASE_PAIR_COUNT)%nat ->
  nth_error (points (buildBackboneCurve phaseOffset)) k
  = Some (backbonePoint phaseOffset k).
Proof.
  unfold BASE_PAIR_COUNT. intros Hk.
  rewrite buildBackboneCurve_points, nth_error_map_seq by lia.
  reflexivity.
Qed.

Lemma BackboneNodes_closed_form (phaseOffset : R) :
  BackboneNodes phaseOffset = map (nodeMatrix phaseOffset) (seq 0 BASE_PAIR_COUNT).
Proof.
  unfold BackboneNodes.
  destruct (for_loop_dummy (backboneNodes_body phaseOffset)
              (fun d => quaternion d = identityQuaternion)
              (fun i m => m = nodeMatrix phaseOffset i))
    with (count := BASE_PAIR_COUNT) (i := O) (d := new_Object3D)
         (res := @nil Matrix4)
    as (d' & ms & -> & _ & Hms).
  - intros i d res Hq. eexists _, _. split; [reflexivity|].
    split; [exact Hq|].
    unfold updateMatrix, nodeMatrix, nodePosition, levelY; simpl.
    now rewrite Hq.
  - reflexivity.
  - cbn [snd app]. now apply Forall2_eq_map.
Qed.

Lemma BackboneNodes_nth (phaseOffset : R) (i : nat) :
  (i < BASE_PAIR_COUNT)%nat ->
  nth_error (BackboneNodes phaseOffset) i = Some (nodeMatrix phaseOffset i).
Proof.
  intros Hi. now rewrite BackboneNodes_closed_form, nth_error_map_seq.
Qed.

Lemma backbonePoint_integer_step (phaseOffset : R) (i : nat) :
  backbonePoint phaseOffset (4 * i) = nodePosition phaseOffset i.
Proof.
  unfold backbonePoint, nodePosition, levelY.
  replace (INR (4 * i) / 4) with (INR i)
    by (rewrite mult_INR; simpl; lra).
  reflexivity.
Qed.

(* ------------------------------------------------------------------ *)
(** ** Curve Builder                                                   *)
(* ------------------------------------------------------------------ *)

(** C7: for every phase offset the Curve Builder produces exactly
    4 * 20 + 1 = 81 control points. *)
Theorem buildBackboneCurve_point_count (phaseOffset : R) :
  length (points (buildBackboneCurve phaseOffset)) = (4 * BASE_PAIR_COUNT + 1)%nat
  /\ (4 * BASE_PAIR_COUNT + 1 = 81)%nat.
Proof.
  rewrite buildBackboneCurve_points, length_map, length_seq.
  split; reflexivity.
Qed.

(** C3: for every phase offset and every step [i] in [0, N), the control
    point at quarter-step index [4 * i] is the position of junction node [i]
    of the strand with the same phase offset, and that node's transform has
    scale (1, 1, 1) and the identity rotation. *)
Theorem curve_sample_matches_junction_node (phaseOffset : R) (i : nat) :
  (i < BASE_PAIR_COUNT)%nat ->
  exists (p : Vector3) (m : Matrix4),
    nth_error (points (buildBackboneCurve phaseOffset)) (4 * i) = Some p
    /\ nth_error (BackboneNodes phaseOffset) i = Some m
    /\ p = translation m
    /\ scaling m = mkVector3 1 1 1
    /\ rotation m = identityQuaternion.
Proof.
  intros Hi.
  exists (backbonePoint phaseOffset (4 * i)), (nodeMatrix phaseOffset i).
  split; [apply buildBackboneCurve_nth; lia|].
  split; [now apply BackboneNodes_nth|].
  split; [apply backbonePoint_integer_step|].
  split; reflexivity.
Qed.

Lemma curve_sample_matches_junction_node_witness :
  exists (p : Vector3) (m : Matrix4),
    nth_error (points (buildBackboneCurve PI)) (4 * 7) = Some p
    /\ nth_error (BackboneNodes PI) 7 = Some m
    /\ p = translation m
    /\ scaling m = mkVector3 1 1 1
    /\ rotation m = identityQuaternion.
Proof.
  apply (curve_sample_matches_junction_node PI 7).
  unfold BASE_PAIR_COUNT; lia.
Defined.

(** C2 (amended): for every phase offset and every index [i] in [0, 4 * N]
    the [i]-th control point lies at angle [(i/4) * twistPerStep + phase],
    [y = (i/4) * verticalStep - (N * verticalStep)/2], [x = radius * cos
    angle], [z = radius * sin angle]; the fitted curve is open, of curve type
    [catmullrom] (uniform Catmull-Rom), with tension 0.5. *)
Theorem buildBackboneCurve_control_points (phaseOffset : R) (i : nat) :
  (i <= 4 * BASE_PAIR_COUNT)%nat ->
  let curve := buildBackboneCurve phaseOffset in
  let angle := (INR i / 4) * TWIST_PER_STEP + phaseOffset in
  (exists p : Vector3,
      nth_error (points curve) i = Some p
      /\ vx p = HELIX_RADIUS * cos angle
      /\ vy p = (INR i / 4) * VERTICAL_STEP - (INR BASE_PAIR_COUNT * VERTICAL_STEP) / 2
      /\ vz p = HELIX_RADIUS * sin angle)
  /\ closed curve = false
  /\ curveType curve = catmullrom
  /\ tension curve = 0.5.
Proof.
  intros Hi curve angle. split.
  - exists (backbonePoint phaseOffset i).
    split; [now apply buildBackboneCurve_nth|].
    unfold backbonePoint; cbn [vx vy vz]. fold angle.
    repeat split; apply Rmult_comm.
  - repeat split.
Qed.

Lemma buildBackboneCurve_control_points_witness :
  let curve := buildBackboneCurve PI in
  let angle := (INR 80 / 4) * TWIST_PER_STEP + PI in
  (exists p : Vector3,
      nth_error (points curve) 80 = Some p
      /\ vx p = HELIX_RADIUS * cos angle
      /\ vy p = (INR 80 / 4) * VERTICAL_STEP - (INR BASE_PAIR_COUNT * VERTICAL_STEP) / 2
      /\ vz p = HELIX_RADIUS * sin angle)
  /\ closed curve = false
  /\ curveType curve = catmullrom
  /\ tension curve = 0.5.
Proof.
  apply (buildBackboneCurve_control_points PI 80).
  unfold BASE_PAIR_COUNT; lia.
Defined.

(** C2 as stated fails: the curve is not fitted in the centripetal style;
    the source asks for the [catmullrom] curve type, the one the tension
    applies to. *)
Lemma buildBackboneCurve_not_centripetal :
  curveType (buildBackboneCurve 0) <> centripetal.
Proof. cbn. discriminate. Qed.










Lemma for_loop_JS_ret {St : Type} (body : nat -> St -> St) (count i : nat)
    (s : St) (w : World) :
  for_loop_JS i count (fun i s => ret (body i s)) s w
  = (for_loop i count body s, w).
Proof.
  revert i s; induction count as [|n IH]; intros i s; simpl.
  - reflexivity.
  - unfold bind, ret at 1. apply IH.
Qed.

Lemma buildBackboneCurve_JS_run (phaseOffset : R) (w : World) :
  buildBackboneCurve_JS phaseOffset w = (buildBackboneCurve phaseOffset, w).
Proof.
  unfold buildBackboneCurve_JS, buildBackboneCurve, bind.
  rewrite (for_loop_JS_ret
             (fun i points => push points (backbonePoint phaseOffset i))).
  reflexivity.
Qed.

(** The question is a real one: a computation that calls [Math.random()]
    gives different results in different worlds. *)
Lemma Math_random_depends_on_world :
  exists w1 w2 : World, fst (Math_random w1) <> fst (Math_random w2).
Proof.
  exists (mkWorld (fun _ => 0) 0 (fun _ => 0)),
         (mkWorld (fun _ => 1) 0 (fun _ => 0)).
  cbn. lra.
Qed.

(** C8: the Curve Builder is deterministic: run for the same phase offset
    in any two worlds (any state of the random generator, any values of the
    bindings outside it) it yields the same point sequence; so does a second
    invocation right after the first; and it leaves the world as it found
    it: it draws no random number and assigns nothing outside itself. *)
Theorem buildBackboneCurve_deterministic (phaseOffset : R) (w1 w2 : World) :
  let first := buildBackboneCurve_JS phaseOffset w1 in
  let other := buildBackboneCurve_JS phaseOffset w2 in
  let again := buildBackboneCurve_JS phaseOffset (snd first) in
  points (fst first) = points (fst other)
  /\ points (fst again) = points (fst first)
  /\ snd first = w1
  /\ points (fst first) = map (backbonePoint phaseOffset) (seq 0 81).
Proof.
  cbv zeta. rewrite !buildBackboneCurve_JS_run. cbn [fst snd].
  split; [reflexivity|]. split; [reflexivity|]. split; [reflexivity|].
  apply buildBackboneCurve_points.
Qed.

(** C9: every control point, for any phase offset, lies at distance
    [HELIX_RADIUS] from the Y axis: [x^2 + z^2 = radius^2] for all 81
    points. *)
Theorem control_points_on_cylinder (phaseOffset : R) :
  length (points (buildBackboneCurve phaseOffset)) = 81%nat
  /\ Forall (fun p => vx p * vx p + vz p * vz p = HELIX_RADIUS * HELIX_RADIUS)
            (points (buildBackboneCurve phaseOffset)).
Proof.
  rewrite buildBackboneCurve_points. split.
  - now rewrite length_map, length_seq.
  - apply Forall_map, Forall_forall. intros i _.
    unfold backbonePoint; cbn [vx vz].
    set (angle := INR i / 4 * TWIST_PER_STEP + phaseOffset).
    pose proof (sin2_cos2 angle) as H. unfold Rsqr in H.
    replace (cos angle * HELIX_RADIUS * (cos angle * HELIX_RADIUS)
             + sin angle * HELIX_RADIUS * (sin angle * HELIX_RADIUS))
      with ((sin angle * sin angle + cos angle * cos angle)
            * (HELIX_RADIUS * HELIX_RADIUS)) by ring.
    rewrite H. ring.
Qed.

Lemma backbonePoint_y (phaseOffset : R) (i : nat) :
  vy (backbonePoint phaseOffset i)
  = INR i * (VERTICAL_STEP / 4) - (INR BASE_PAIR_COUNT * VERTICAL_STEP) / 2.
Proof. unfold backbonePoint; cbn [vy]. field. Qed.









(* ------------------------------------------------------------------ *)
(** ** Instance Placer: rungs and junction nodes                       *)
(* ------------------------------------------------------------------ *)

Lemma Forall2_map_eq {A B C : Type} (g : B -> C) (f : A -> C)
    (l : list A) (ms : list B) :
  Forall2 (fun i m => g m = f i) l ms -> map g ms = map f l.
Proof. induction 1; simpl; congruence. Qed.

Lemma Forall2_impl_In {A B : Type} (P Q : A -> B -> Prop)
    (l : list A) (ms : list B) :
  (forall a b, In a l -> P a b -> Q a b) ->
  Forall2 P l ms -> Forall2 Q l ms.
Proof.
  intros HPQ H. induction H as [|a b l ms Hab _ IH]; constructor.
  - apply HPQ; [now left | exact Hab].
  - apply IH. intros a' b' Hin. apply HPQ. now right.
Qed.

Section Rungs.
Variable lookAtQuaternion : Object3D -> Vector3 -> Quaternion.
Variable rotateXQuaternion : Quaternion -> R -> Quaternion.

(** What iteration [i] of the rung loop writes into the matrix it pushes,
    whatever the state of the shared [dummy] before it. *)
Lemma BasePairRungs_entries :
  Forall2 (fun i m =>
             translation m
             = mkVector3
                 ((cos (INR i * TWIST_PER_STEP) * HELIX_RADIUS
                   + cos (INR i * TWIST_PER_STEP + Math_PI) * HELIX_RADIUS) / 2)
                 (levelY i)
                 ((sin (INR i * TWIST_PER_STEP) * HELIX_RADIUS
                   + sin (INR i * TWIST_PER_STEP + Math_PI) * HELIX_RADIUS) / 2)
             /\ scaling m = mkVector3 1 (HELIX_RADIUS * 2 / 2) 1)
          (seq 0 BASE_PAIR_COUNT)
          (BasePairRungs lookAtQuaternion rotateXQuaternion).
Proof.
  unfold BasePairRungs.
  match goal with |- Forall2 ?Q _ _ =>
    destruct (for_loop_dummy
                (basePairRungs_body lookAtQuaternion rotateXQuaternion)
                (fun _ => True) Q)
      with (count := BASE_PAIR_COUNT) (i := O) (d := new_Object3D)
           (res := @nil Matrix4)
      as (d' & ms & -> & _ & Hms)
  end.
  - intros i d res _. eexists _, _. split; [reflexivity|].
    split; [exact I|]. split; reflexivity.
  - exact I.
  - exact Hms.
Qed.

(** C1: for every base-pair index [i] in [0, 20), the [i]-th rung
    transform is centred at the midpoint of the two antipodal backbone
    points of level [y = i * verticalStep - (N * verticalStep)/2] (junction
    node [i] of strand A, at angle [i * twistPerStep], and junction node
    [i] of strand B, at that angle plus pi, both at [HELIX_RADIUS] from the
    axis); its scale is 1 across and [length/2 = HELIX_RADIUS] along the
    long axis, and the rung drawn with it is [2 * HELIX_RADIUS] long. *)
Theorem rung_transform_center_and_length :
  Forall2 (fun i m =>
             let angle := INR i * TWIST_PER_STEP in
             let y := INR i * VERTICAL_STEP
                      - (INR BASE_PAIR_COUNT * VERTICAL_STEP) / 2 in
             let A := mkVector3 (cos angle * HELIX_RADIUS) y
                                (sin angle * HELIX_RADIUS) in
             let B := mkVector3 (cos (angle + Math_PI) * HELIX_RADIUS) y
                                (sin (angle + Math_PI) * HELIX_RADIUS) in
             let length := HELIX_RADIUS * 2 in
             (exists a b : Matrix4,
                 nth_error nodesA i = Some a /\ translation a = A
                 /\ nth_error nodesB i = Some b /\ translation b = B)
             /\ translation m = midpoint A B
             /\ vy (translation m) = y
             /\ scaling m = mkVector3 1 (length / 2) 1
             /\ length / 2 = HELIX_RADIUS
             /\ instanceLength RUNG_GEOMETRY m = 2 * HELIX_RADIUS)
          (seq 0 BASE_PAIR_COUNT)
          (BasePairRungs lookAtQuaternion rotateXQuaternion).
Proof.
  eapply Forall2_impl_In; [|exact BasePairRungs_entries].
  intros i m Hin [Hpos Hscale]. cbv zeta.
  apply in_seq in Hin.
  split.
  - exists (nodeMatrix 0 i), (nodeMatrix Math_PI i).
    split; [apply BackboneNodes_nth; lia|].
    split; [unfold nodeMatrix, nodePosition, levelY; cbn [translation];
            now rewrite Rplus_0_r|].
    split; [apply BackboneNodes_nth; lia|].
    reflexivity.
  - unfold midpoint, instanceLength. rewrite Hpos, Hscale.
    cbn [vx vy vz height RUNG_GEOMETRY]. unfold levelY.
    repeat split; try lra.
    f_equal. lra.
Qed.

(** C6: there are as many rung transforms as junction-node transforms per
    strand, namely the base-pair count 20, and rung [i] and junction [i]
    of each strand sit at the same level
    [y = i * verticalStep - (N * verticalStep)/2]. *)
Theorem rung_and_node_counts_and_levels (phaseOffset : R) :
  let level := fun i : nat =>
    INR i * VERTICAL_STEP - (INR BASE_PAIR_COUNT * VERTICAL_STEP) / 2 in
  let y_of := fun m : Matrix4 => vy (translation m) in
  length (BasePairRungs lookAtQuaternion rotateXQuaternion) = length (BackboneNodes phaseOffset)
  /\ length (BackboneNodes phaseOffset) = BASE_PAIR_COUNT
  /\ BASE_PAIR_COUNT = 20%nat
  /\ map y_of (BasePairRungs lookAtQuaternion rotateXQuaternion) = map level (seq 0 BASE_PAIR_COUNT)
  /\ map y_of (BackboneNodes phaseOffset) = map level (seq 0 BASE_PAIR_COUNT).
Proof.
  intros level y_of.
  assert (Hr : map y_of (BasePairRungs lookAtQuaternion rotateXQuaternion) = map level (seq 0 BASE_PAIR_COUNT)).
  { apply Forall2_map_eq.
    eapply Forall2_impl_In; [|exact BasePairRungs_entries].
    intros i m _ [Hpos _]. unfold y_of. now rewrite Hpos. }
  assert (Hn : map y_of (BackboneNodes phaseOffset)
               = map level (seq 0 BASE_PAIR_COUNT)).
  { rewrite BackboneNodes_closed_form, map_map. reflexivity. }
  assert (Lr : length (BasePairRungs lookAtQuaternion rotateXQuaternion) = BASE_PAIR_COUNT).
  { rewrite <- (length_map y_of), Hr, length_map. apply length_seq. }
  assert (Ln : length (BackboneNodes phaseOffset) = BASE_PAIR_COUNT).
  { rewrite <- (length_map y_of), Hn, length_map. apply length_seq. }
  repeat split; congruence.
Qed.

End Rungs.

(* ------------------------------------------------------------------ *)
(** ** Helix Assembly: the per-frame update                            *)
(* ------------------------------------------------------------------ *)

(** C5: on a mounted group the frame update at elapsed time [t] sets
    [rotation.y = t * 0.15] and [position.y = sin (t * 0.5) * 0.15] and
    leaves every other component as it was; so both are 0 at [t = 0],
    [position.y] is 0.15 at [t = PI], and [|position.y| <= 0.15] at every
    [t]. *)
Theorem frame_update (g : Group) (t : R) :
  exists g_t g_0 g_pi : Group,
    DNAHelix_useFrame (Some g) t = Some g_t
    /\ DNAHelix_useFrame (Some g) 0 = Some g_0
    /\ DNAHelix_useFrame (Some g) PI = Some g_pi
    /\ ey (group_rotation g_t) = t * 0.15
    /\ vy (group_position g_t) = sin (t * 0.5) * 0.15
    /\ ey (group_rotation g_0) = 0
    /\ vy (group_position g_0) = 0
    /\ vy (group_position g_pi) = 0.15
    /\ Rabs (vy (group_position g_t)) <= 0.15
    /\ ex (group_rotation g_t) = ex (group_rotation g)
    /\ ez (group_rotation g_t) = ez (group_rotation g)
    /\ vx (group_position g_t) = vx (group_position g)
    /\ vz (group_position g_t) = vz (group_position g)
    /\ group_scale g_t = group_scale g.
Proof.
  unfold DNAHelix_useFrame. eexists _, _, _.
  do 3 (split; [reflexivity|]).
  cbn [group_rotation group_position group_scale ex ey ez vx vy vz].
  split; [reflexivity|]. split; [reflexivity|].
  split; [ring|].
  split; [rewrite Rmult_0_l, sin_0; ring|].
  split; [replace (PI * 0.5) with (PI / 2) by lra; rewrite sin_PI2; ring|].
  split; [|repeat split].
  pose proof (SIN_bound (t * 0.5)) as [Hlo Hhi].
  apply Rabs_le. split; lra.
Qed.

(** An unmounted group ([groupRef.current] is [null]) is left alone. *)
Lemma frame_update_unmounted (t : R) : DNAHelix_useFrame None t = None.
Proof. reflexivity. Qed.


(* ------------------------------------------------------------------ *)
(** ** The mount effect                                                *)
(* ------------------------------------------------------------------ *)

Lemma write_slot_length {A : Type} (buf : list A) (index : nat) (v : A) :
  length (write_slot buf index v) = length buf.
Proof.
  revert index; induction buf as [|x buf IH]; intros [|k]; simpl; auto.
Qed.

(** Writes at indices [S i] and above do not see the first slot. *)
Lemma forEach_setMatrixAt_shift (ms : list Matrix4) (i : nat)
    (x : option Matrix4) (buf : list (option Matrix4)) (flag : bool) :
  forEach ms (S i) (fun mat i mesh => setMatrixAt mesh i mat)
    (mkInstancedMesh (x :: buf) flag)
  = let r := forEach ms i (fun mat i mesh => setMatrixAt mesh i mat)
               (mkInstancedMesh buf flag) in
    mkInstancedMesh (x :: instanceMatrix r) (needsUpdate r).
Proof.
  revert i buf; induction ms as [|m ms IH]; intros i buf; simpl.
  - reflexivity.
  - unfold setMatrixAt; cbn [instanceMatrix needsUpdate write_slot].
    apply IH.
Qed.

(** Writes into an empty buffer are all dropped. *)
Lemma forEach_setMatrixAt_empty (ms : list Matrix4) (i : nat) (flag : bool) :
  forEach ms i (fun mat i mesh => setMatrixAt mesh i mat)
    (mkInstancedMesh [] flag)
  = mkInstancedMesh [] flag.
Proof.
  revert i; induction ms as [|m ms IH]; intros i; simpl; [reflexivity|].
  unfold setMatrixAt; cbn [instanceMatrix needsUpdate write_slot]. apply IH.
Qed.

(** The callbacks for [ms], run from index 0: the buffer holds [ms] as far
    as it reaches, and what lies past [ms] is untouched. *)
Lemma forEach_setMatrixAt (ms : list Matrix4) (buf : list (option Matrix4))
    (flag : bool) :
  forEach ms 0 (fun mat i mesh => setMatrixAt mesh i mat)
    (mkInstancedMesh buf flag)
  = mkInstancedMesh
      (firstn (length buf) (map Some ms) ++ skipn (length ms) buf) flag.
Proof.
  revert buf; induction ms as [|m ms IH]; intros buf.
  - simpl. now rewrite firstn_nil.
  - destruct buf as [|b buf].
    + now rewrite forEach_setMatrixAt_empty.
    + cbn [forEach]. unfold setMatrixAt at 2.
      cbn [instanceMatrix needsUpdate write_slot].
      rewrite forEach_setMatrixAt_shift, IH. reflexivity.
Qed.

(** X1: the mount effect, on any mesh and any list of matrices: the buffer
    keeps its length; it holds the matrices in order from slot 0 as far as
    it reaches (matrices past its end are dropped, nothing is appended);
    slots past the last matrix keep their content; the buffer is flagged for
    upload. *)
Theorem applyMatrices_buffer (mesh : InstancedMesh) (matrices : list Matrix4) :
  exists mesh' : InstancedMesh,
    applyMatrices (Some mesh) matrices = Some mesh'
    /\ instanceMatrix mesh'
       = firstn (length (instanceMatrix mesh)) (map Some matrices)
         ++ skipn (length matrices) (instanceMatrix mesh)
    /\ length (instanceMatrix mesh') = length (instanceMatrix mesh)
    /\ needsUpdate mesh' = true.
Proof.
  destruct mesh as [buf flag]. unfold applyMatrices.
  rewrite forEach_setMatrixAt. eexists. split; [reflexivity|].
  cbn [instanceMatrix needsUpdate]. split; [reflexivity|]. split; [|reflexivity].
  rewrite length_app, length_firstn, length_skipn, length_map. lia.
Qed.

(** Before the mesh exists ([meshRef.current] is [null]) the effect does
    nothing. *)
Lemma applyMatrices_unmounted (matrices : list Matrix4) :
  applyMatrices None matrices = None.
Proof. reflexivity. Qed.

Lemma applyMatrices_exact (matrices : list Matrix4) :
  applyMatrices (Some (new_InstancedMesh (length matrices))) matrices
  = Some (mkInstancedMesh (map Some matrices) true).
Proof.
  unfold applyMatrices, new_InstancedMesh. rewrite forEach_setMatrixAt.
  cbn [instanceMatrix]. rewrite repeat_length.
  rewrite firstn_all2 by now rewrite length_map.
  rewrite skipn_all2 by now rewrite repeat_length.
  now rewrite app_nil_r.
Qed.

(** X2: once mounted, the junction-node mesh of a strand has one slot per
    matrix the component computed, [BASE_PAIR_COUNT] of them: every slot
    has been written, no matrix was dropped, and the buffer is flagged for
    upload. *)
Theorem BackboneNodes_mounted_slots (phaseOffset : R) :
  exists mesh : InstancedMesh,
    BackboneNodes_mounted phaseOffset = Some mesh
    /\ length (instanceMatrix mesh) = BASE_PAIR_COUNT
    /\ length (BackboneNodes phaseOffset) = length (instanceMatrix mesh)
    /\ ~ In None (instanceMatrix mesh)
    /\ needsUpdate mesh = true.
Proof.
  assert (Hlen : length (BackboneNodes phaseOffset) = BASE_PAIR_COUNT).
  { rewrite BackboneNodes_closed_form, length_map. apply length_seq. }
  unfold BackboneNodes_mounted. rewrite <- Hlen.
  rewrite applyMatrices_exact. eexists. split; [reflexivity|].
  cbn [instanceMatrix needsUpdate]. rewrite length_map.
  split; [reflexivity|]. split; [reflexivity|]. split; [|reflexivity].
  rewrite in_map_iff. intros (m & Hm & _). discriminate.
Qed.

Section MountedRungs.
Variable lookAtQuaternion : Object3D -> Vector3 -> Quaternion.
Variable rotateXQuaternion : Quaternion -> R -> Quaternion.

Lemma BasePairRungs_length :
  length (BasePairRungs lookAtQuaternion rotateXQuaternion) = BASE_PAIR_COUNT.
Proof.
  pose proof (BasePairRungs_entries lookAtQuaternion rotateXQuaternion) as H.
  apply Forall2_length in H. rewrite <- H. apply length_seq.
Qed.

(** X3: once mounted, the rung mesh has one slot per matrix
    [BasePairRungs] computed, [BASE_PAIR_COUNT] of them: every slot has
    been written, no matrix was dropped, and the buffer is flagged for
    upload. *)
Theorem BasePairRungs_mounted_slots :
  exists mesh : InstancedMesh,
    BasePairRungs_mounted lookAtQuaternion rotateXQuaternion = Some mesh
    /\ length (instanceMatrix mesh) = BASE_PAIR_COUNT
    /\ length (BasePairRungs lookAtQuaternion rotateXQuaternion)
       = length (instanceMatrix mesh)
    /\ ~ In None (instanceMatrix mesh)
    /\ needsUpdate mesh = true.
Proof.
  pose proof BasePairRungs_length as Hlen.
  unfold BasePairRungs_mounted. rewrite <- Hlen.
  rewrite applyMatrices_exact. eexists. split; [reflexivity|].
  cbn [instanceMatrix needsUpdate]. rewrite length_map.
  split; [reflexivity|]. split; [reflexivity|]. split; [|reflexivity].
  rewrite in_map_iff. intros (m & Hm & _). discriminate.
Qed.

End MountedRungs.

(* ------------------------------------------------------------------ *)
(** ** Vertical extent of nodes and rungs, in binary64                 *)
(* ------------------------------------------------------------------ *)

(** X9: in the binary64 arithmetic of the program, the level of every
    junction node and rung ([i] from 0 to 19) is the y of the control point
    at quarter-step index [4 * i]; each level is above the one before; the
    lowest is the y of the curve's first control point, and the highest is
    still below the y of its last control point: the backbone reaches above
    the topmost node and rung. *)
Theorem node_levels_within_curve :
  Forall (fun i =>
            Double.level_y i = Double.backbonePoint_y (4 * i)
            /\ leb (Double.backbonePoint_y 0) (Double.level_y i) = true
            /\ ltb (Double.level_y i) (Double.backbonePoint_y 80) = true)
         (seq 0 20)
  /\ Forall (fun i => ltb (Double.level_y i) (Double.level_y (S i)) = true)
            (seq 0 19)
  /\ Double.level_y 0 = Double.backbonePoint_y 0.
Proof.
  split; [|split]; [| |vm_compute; reflexivity];
    repeat constructor; vm_compute; reflexivity.
Qed.

(* ------------------------------------------------------------------ *)
(** ** The animation over many frames                                  *)
(* ------------------------------------------------------------------ *)

Lemma DNAHelix_useFrame_twice (groupRef : option Group) (t1 t2 : R) :
  DNAHelix_useFrame (DNAHelix_useFrame groupRef t1) t2
  = DNAHelix_useFrame groupRef t2.
Proof. destruct groupRef; reflexivity. Qed.

(** X10: the pose after a frame depends on that frame's time alone, not on
    which frames were rendered before it: running the callback at any
    sequence of times and then at [t] leaves the group as a single call at
    [t] does. *)
Theorem frame_history_irrelevant (groupRef : option Group) (history : list R)
    (t : R) :
  fold_left DNAHelix_useFrame (history ++ [t]) groupRef
  = DNAHelix_useFrame groupRef t.
Proof.
  revert groupRef; induction history as [|t0 history IH]; intros groupRef.
  - reflexivity.
  - cbn [app fold_left]. rewrite IH. apply DNAHelix_useFrame_twice.
Qed.

(* ------------------------------------------------------------------ *)
(** ** Re-running the mount effect                                     *)
(* ------------------------------------------------------------------ *)

Lemma skipn_firstn_app_skipn {A : Type} (n : nat) (src buf : list A) :
  length src = n ->
  skipn n (firstn (length buf) src ++ skipn n buf) = skipn n buf.
Proof.
  intros Hn. destruct (Nat.le_gt_cases n (length buf)) as [Hle|Hgt].
  - rewrite firstn_all2 by lia.
    rewrite skipn_app, skipn_all2 by lia.
    rewrite Hn, Nat.sub_diag. reflexivity.
  - rewrite (skipn_all2 buf) by lia. rewrite app_nil_r.
    apply skipn_all2. rewrite length_firstn. lia.
Qed.

(** X12: the mount effect can be run again without harm to the instance
    data: a second run with the same matrices leaves every slot of the
    buffer as the first run left it. *)
Theorem applyMatrices_idempotent (meshRef : option InstancedMesh)
    (matrices : list Matrix4) :
  option_map instanceMatrix
    (applyMatrices (applyMatrices meshRef matrices) matrices)
  = option_map instanceMatrix (applyMatrices meshRef matrices).
Proof.
  destruct meshRef as [[buf flag]|]; [|reflexivity].
  unfold applyMatrices. rewrite forEach_setMatrixAt.
  cbn [instanceMatrix]. rewrite forEach_setMatrixAt.
  cbn [option_map instanceMatrix]. f_equal.
  assert (Hlen : length (firstn (length buf) (map Some matrices)
                         ++ skipn (length matrices) buf) = length buf).
  { rewrite length_app, length_firstn, length_skipn, length_map. lia. }
  rewrite Hlen. f_equal.
  apply skipn_firstn_app_skipn. apply length_map.
Qed.
